(** * Orderful API client: a shallow embedding of [orderful/api.py]

    The client is a thin wrapper around an HTTP session.  Every public
    method builds a URL, fills a [params] or [payload] dictionary, sends
    one request through the session, calls [raise_for_status] on the
    response and returns (part of) the decoded body.

    Python dictionaries with string keys are finite maps ([gmap string]),
    Python values are the JSON-shaped fragment of the language, and the
    methods live in a state-and-exception monad whose state holds the
    client object and the log of what went over the wire. *)

From Stdlib Require Import ZArith String Ascii List.
From Stdlib Require Init.Byte.
From stdpp Require Import base option gmap strings list fin_maps pretty.
Import ListNotations.
Local Open Scope string_scope.
Local Open Scope Z_scope.
Local Open Scope list_scope.
Set Warnings "-register-all".

(** ** Python values *)

(** The values a caller passes as arguments and the values [json()]
    produces: [None], booleans, integers, strings, lists and dictionaries
    keyed by strings.  Floats, tuples and user objects are left out. *)
Inductive value : Type :=
  | VNone
  | VBool (b : bool)
  | VInt (z : Z)
  | VStr (s : string)
  | VList (l : list value)
  | VDict (d : gmap string value).

#[global] Instance value_inhabited : Inhabited value := populate VNone.

Abbreviation dict := (gmap string value).
Abbreviation bytes := (list Byte.byte).

(** [bool(v)]: the truth value Python's [if v:] tests. *)
Definition truthy (v : value) : bool :=
  match v with
  | VNone => false
  | VBool b => b
  | VInt z => negb (z =? 0)
  | VStr s => negb (String.eqb s "")
  | VList l => match l with [] => false | _ :: _ => true end
  | VDict d => match map_to_list d with [] => false | _ :: _ => true end
  end.

(** [a and b]: Python's [and] yields one of its operands, not a boolean. *)
Definition py_and (a b : value) : value :=
  if truthy a then b else a.

(** [v == "..."] against a string literal: only an equal string compares
    equal, and the result is a Python [bool]. *)
Definition eq_literal (v : value) (lit : string) : value :=
  match v with
  | VStr s => VBool (String.eqb s lit)
  | _ => VBool false
  end.

(** [d.update(k=v)] and the guard [if c: ...] it sits under. *)
Definition update (k : string) (v : value) (d : dict) : dict := <[k := v]> d.

Definition when (c : value) (f : dict → dict) (d : dict) : dict :=
  if truthy c then f d else d.

(** The default every optional argument of the client has: [False]. *)
Definition default_arg : value := VBool false.

(** Identifiers interpolated into a URL by an f-string.  The docstrings
    give them as [int] or [string]; [str()] of those is modelled. *)
Inductive ident : Type :=
  | IdInt (z : Z)
  | IdStr (s : string).

Definition format (i : ident) : string :=
  match i with
  | IdInt z => pretty z
  | IdStr s => s
  end.

(** ** The HTTP session the client talks through *)

Inductive Method : Type := GET | POST.

(** A request as the client hands it to the session: the keyword
    arguments [headers=], [params=] and [json=] are [None] when the call
    site does not pass them. *)
Record Request : Type := mkRequest {
  req_method : Method;
  req_url : string;
  req_headers : option dict;
  req_params : option dict;
  req_json : option dict
}.

Record Response : Type := mkResponse {
  status_code : Z;
  content : bytes
}.

(** [requests.Session]: the part the client touches is its default
    header dictionary (keys kept in lower case). *)
Record Session : Type := mkSession {
  headers : dict
}.

(** What crosses the boundary to the HTTP library: a request sent
    through a session, and the decoding of a response body as JSON. *)
Inductive Event : Type :=
  | Sent (s : Session) (r : Request)
  | Decoded (resp : Response).

Inductive exn : Type :=
  | HTTPError (response : Response)
  | JSONDecodeError (response : Response)
  | KeyError (key : string)
  | TypeError.

Inductive outcome (A : Type) : Type :=
  | Return (a : A)
  | Raise (e : exn).
Arguments Return {A} a.
Arguments Raise {A} e.

(** ** The client object *)

Record OrderfulAPI : Type := mkOrderfulAPI {
  stream : value;
  orderful_api_key : value;
  api_headers : dict;
  client : Session
}.

(** The state a method runs in: the client object it is called on and
    everything that has gone over the wire so far. *)
Record World : Type := mkWorld {
  self : OrderfulAPI;
  wire : list Event
}.

Definition M (A : Type) : Type := World → outcome A * World.

Definition ret {A} (a : A) : M A := λ w, (Return a, w).

Definition raise {A} (e : exn) : M A := λ w, (Raise e, w).

Definition bind {A B} (m : M A) (k : A → M B) : M B := λ w,
  match m w with
  | (Return a, w') => k a w'
  | (Raise e, w') => (Raise e, w')
  end.

#[global] Instance M_ret : MRet M := @ret.
#[global] Instance M_bind : MBind M := λ A B k m, bind m k.

(** [self.attr] *)
Definition getattr {A} (f : OrderfulAPI → A) : M A := λ w, (Return (f (self w)), w).

(** The events a computation adds to the wire when run from [w]. *)
Definition emitted {A} (m : M A) (w : World) : list Event :=
  drop (length (wire w)) (wire (m w).2).

(** The parameters of a [list_transactions] call. *)
Record list_transactions_args : Type := mkFilters {
  prev_cursor : value;
  next_cursor : value;
  created_at : value;
  business_numbers : value;
  transaction_type : value;
  validation_status : value;
  delivery_status : value;
  acknowledgment_status : value;
  sender_isa_id : value;
  receiver_isa_id : value;
  reference_identifier : value;
  sender_interchange_reference_identifier : value;
  sender_group_reference_identifier : value;
  sender_transaction_reference_identifier : value;
  receiver_interchange_reference_identifier : value;
  receiver_group_reference_identifier : value;
  receiver_transaction_reference_identifier : value
}.

(** What a method hands back: a value, a pair of values or raw bytes. *)
Inductive returned : Type :=
  | RValue (v : value)
  | RTuple (a b : value)
  | RBytes (b : bytes).

(** The optional keyword parameters of [list_transactions], in the
    order of its signature. *)
Inductive filter : Type :=
  | F_prev_cursor
  | F_next_cursor
  | F_created_at
  | F_business_numbers
  | F_transaction_type
  | F_validation_status
  | F_delivery_status
  | F_acknowledgment_status
  | F_sender_isa_id
  | F_receiver_isa_id
  | F_reference_identifier
  | F_sender_interchange_reference_identifier
  | F_sender_group_reference_identifier
  | F_sender_transaction_reference_identifier
  | F_receiver_interchange_reference_identifier
  | F_receiver_group_reference_identifier
  | F_receiver_transaction_reference_identifier.

Definition filters : list filter :=
  [ F_prev_cursor;
    F_next_cursor;
    F_created_at;
    F_business_numbers;
    F_transaction_type;
    F_validation_status;
    F_delivery_status;
    F_acknowledgment_status;
    F_sender_isa_id;
    F_receiver_isa_id;
    F_reference_identifier;
    F_sender_interchange_reference_identifier;
    F_sender_group_reference_identifier;
    F_sender_transaction_reference_identifier;
    F_receiver_interchange_reference_identifier;
    F_receiver_group_reference_identifier;
    F_receiver_transaction_reference_identifier ].

(** The Python name of each parameter. *)
Definition arg_name (f : filter) : string :=
  match f with
  | F_prev_cursor => "prev_cursor"
  | F_next_cursor => "next_cursor"
  | F_created_at => "created_at"
  | F_business_numbers => "business_numbers"
  | F_transaction_type => "transaction_type"
  | F_validation_status => "validation_status"
  | F_delivery_status => "delivery_status"
  | F_acknowledgment_status => "acknowledgment_status"
  | F_sender_isa_id => "sender_isa_id"
  | F_receiver_isa_id => "receiver_isa_id"
  | F_reference_identifier => "reference_identifier"
  | F_sender_interchange_reference_identifier => "sender_interchange_reference_identifier"
  | F_sender_group_reference_identifier => "sender_group_reference_identifier"
  | F_sender_transaction_reference_identifier => "sender_transaction_reference_identifier"
  | F_receiver_interchange_reference_identifier => "receiver_interchange_reference_identifier"
  | F_receiver_group_reference_identifier => "receiver_group_reference_identifier"
  | F_receiver_transaction_reference_identifier => "receiver_transaction_reference_identifier"
  end.

(** The keyword each parameter is stored under by [params.update(...)]. *)
Definition query_key (f : filter) : string :=
  match f with
  | F_prev_cursor => "prevCursor"
  | F_next_cursor => "nextCursor"
  | F_created_at => "createdAt"
  | F_business_numbers => "businessNumbers"
  | F_transaction_type => "transactionType"
  | F_validation_status => "validationStatus"
  | F_delivery_status => "deliveryStatus"
  | F_acknowledgment_status => "acknowledgmentStatus"
  | F_sender_isa_id => "senderIsaId"
  | F_receiver_isa_id => "receiverIsaId"
  | F_reference_identifier => "referenceIdentifier"
  | F_sender_interchange_reference_identifier => "senderInterchangeReferenceIdentifier"
  | F_sender_group_reference_identifier => "senderGroupReferenceIdentifier"
  | F_sender_transaction_reference_identifier => "senderTransactionReferenceIdentifier"
  | F_receiver_interchange_reference_identifier => "receiverInterchangeReferenceIdentifier"
  | F_receiver_group_reference_identifier => "receiverGroupReferenceIdentifier"
  | F_receiver_transaction_reference_identifier => "receiverTransactionReferenceIdentifier"
  end.

(** The value the caller supplied for a parameter. *)
Definition arg_value (f : filter) (a : list_transactions_args) : value :=
  match f with
  | F_prev_cursor => prev_cursor a
  | F_next_cursor => next_cursor a
  | F_created_at => created_at a
  | F_business_numbers => business_numbers a
  | F_transaction_type => transaction_type a
  | F_validation_status => validation_status a
  | F_delivery_status => delivery_status a
  | F_acknowledgment_status => acknowledgment_status a
  | F_sender_isa_id => sender_isa_id a
  | F_receiver_isa_id => receiver_isa_id a
  | F_reference_identifier => reference_identifier a
  | F_sender_interchange_reference_identifier => sender_interchange_reference_identifier a
  | F_sender_group_reference_identifier => sender_group_reference_identifier a
  | F_sender_transaction_reference_identifier => sender_transaction_reference_identifier a
  | F_receiver_interchange_reference_identifier => receiver_interchange_reference_identifier a
  | F_receiver_group_reference_identifier => receiver_group_reference_identifier a
  | F_receiver_transaction_reference_identifier => receiver_transaction_reference_identifier a
  end.

(** A call that leaves every filter at its default. *)
Definition no_filters : list_transactions_args :=
  mkFilters default_arg default_arg default_arg default_arg default_arg
            default_arg default_arg default_arg default_arg default_arg
            default_arg default_arg default_arg default_arg default_arg
            default_arg default_arg.

(** The usual snake_case to camelCase conversion, as a yardstick for the
    key table: an underscore is dropped and the letter after it is
    capitalised. *)
Definition upper (c : ascii) : ascii :=
  let n := N_of_ascii c in
  if ((97 <=? n) && (n <=? 122))%N then ascii_of_N (n - 32) else c.

Fixpoint to_camel (s : string) : string :=
  match s with
  | EmptyString => EmptyString
  | String c rest =>
      if Ascii.eqb c "_" then
        match rest with
        | EmptyString => EmptyString
        | String c' rest' => String (upper c') (to_camel rest')
        end
      else String c (to_camel rest)
  end.

(** The guarded updates of [list_transactions], read off the tables
    above: one [if v: params.update(key=v)] per parameter, in order. *)
Definition fill (a : list_transactions_args) (fs : list filter) (params : dict) : dict :=
  foldl (λ p f, when (arg_value f a) (update (query_key f) (arg_value f a)) p) params fs.

(** What the truthy-inclusion policy sends for an argument: the value
    itself when it is truthy, nothing otherwise. *)
Definition supplied (v : value) : option value :=
  if truthy v then Some v else None.

(** The requests among a list of events, and the two dictionaries of a
    request ([params=] and [json=]), empty when not passed. *)
Definition requests_of (evs : list Event) : list Request :=
  omap (λ e, match e with Sent _ r => Some r | Decoded _ => None end) evs.

Definition query (r : Request) : dict := default ∅ (req_params r).

Definition body (r : Request) : dict := default ∅ (req_json r).

(** The requests a computation sends when run from [w]. *)
Definition requests {A} (m : M A) (w : World) : list Request :=
  requests_of (emitted m w).

(** A service that always answers [resp], and a decoder that always
    yields [v]: the fixed collaborators used to run the client on
    concrete inputs. *)
Definition answering (resp : Response) : list Event → Session → Request → Response :=
  λ _ _ _, resp.

Definition decoding (v : option value) : bytes → option value :=
  λ _, v.

Section Client.

(** The remote service and the two library facts the client relies on
    but does not define: how the service answers a request (possibly
    depending on what it has seen before), how a body decodes as JSON
    ([None] when it is not JSON), and the headers a fresh session
    starts with. *)
Variable server : list Event → Session → Request → Response.
Variable json_loads : bytes → option value.
Variable default_headers : dict.

(** *** Session and response methods *)

(** [session.request(method, url, ...)]: one request goes out, the
    service's response comes back.  The runs modelled are those in which
    the session call does return a response; what the HTTP library raises
    on its own before there is one (an unusable header, a connection that
    fails) is not part of the model. *)
Definition request (m : Method) (url : string)
    (hdrs params json : option dict) : M Response := λ w,
  let s := client (self w) in
  let r := mkRequest m url hdrs params json in
  (Return (server (wire w) s r), mkWorld (self w) (wire w ++ [Sent s r])).

(** [session.get(url, params=...)] and [session.post(url, headers=...,
    json=...)] *)
Definition get (url : string) (params : option dict) : M Response :=
  request GET url None params None.

Definition post (url : string) (hdrs json : option dict) : M Response :=
  request POST url hdrs None json.

(** [response.raise_for_status()]: statuses 400 to 599 raise. *)
Definition failure_status (resp : Response) : bool :=
  (400 <=? status_code resp) && (status_code resp <? 600).

Definition raise_for_status (resp : Response) : M unit :=
  if failure_status resp then raise (HTTPError resp) else ret tt.

(** [response.json()] *)
Definition json (resp : Response) : M value := λ w,
  let w' := mkWorld (self w) (wire w ++ [Decoded resp]) in
  match json_loads (content resp) with
  | Some v => (Return v, w')
  | None => (Raise (JSONDecodeError resp), w')
  end.

(** [data[key]] with a string key. *)
Definition getitem (data : value) (key : string) : M value :=
  match data with
  | VDict d =>
      match d !! key with
      | Some v => ret v
      | None => raise (KeyError key)
      end
  | _ => raise TypeError
  end.

(** *** [OrderfulAPI] *)

Definition init (stream orderful_api_key : value) : OrderfulAPI :=
  let api_headers : dict :=
    {[ "accept" := VStr "application/json";
       "content-type" := VStr "application/json";
       "orderful-api-key" := orderful_api_key ]} in
  let client := mkSession (api_headers ∪ default_headers) in
  mkOrderfulAPI stream orderful_api_key api_headers client.

Definition get_base_url : M string :=
  ret "https://api.orderful.com/v3".

Definition is_enabled : M value :=
  stream ← getattr stream;
  orderful_api_key ← getattr orderful_api_key;
  ret (py_and stream orderful_api_key).

Definition is_live_stream : M value :=
  stream ← getattr stream;
  ret (eq_literal stream "LIVE").

Definition get_transactions_from_poller_bucket
    (bucket_id : ident) (limit : value) : M value :=
  baseurl ← get_base_url;
  let url := baseurl +:+ "/polling-buckets/" +:+ format bucket_id in
  let params : dict := ∅ in
  let params := when limit (update "limit" limit) params in
  response ← get url (Some params);
  raise_for_status response;;
  json response.

Definition list_relationships
    (bucket_id : ident) (auto_send limit prev_cursor next_cursor : value)
    : M value :=
  baseurl ← get_base_url;
  let url := baseurl +:+ "/relationships/" +:+ format bucket_id in
  let params : dict := ∅ in
  let params := when auto_send (update "auto_send" auto_send) params in
  let params := when limit (update "limit" limit) params in
  let params := when prev_cursor (update "prev_cursor" prev_cursor) params in
  let params := when next_cursor (update "next_cursor" next_cursor) params in
  response ← get url (Some params);
  raise_for_status response;;
  json response.

Definition get_organization_details : M value :=
  baseurl ← get_base_url;
  let url := baseurl +:+ "/organizations/me" in
  response ← get url None;
  raise_for_status response;;
  json response.

Definition convert_data (origin_content destination_content : value) : M value :=
  baseurl ← get_base_url;
  let url := baseurl +:+ "/convert" in
  let hdrs : dict :=
    {[ "Content-Type" := origin_content;
       "Accept" := destination_content ]} in
  response ← post url (Some hdrs) None;
  raise_for_status response;;
  json response.

Definition create_transaction
    (orderful_type message sender_isa_id receiver_isa_id : value) : M value :=
  baseurl ← get_base_url;
  let url := baseurl +:+ "/transactions" in
  stream ← getattr stream;
  let payload : dict :=
    {[ "type" := VDict {[ "name" := orderful_type ]};
       "stream" := stream;
       "message" := message;
       "sender" := VDict {[ "isaId" := sender_isa_id ]};
       "receiver" := VDict {[ "isaId" := receiver_isa_id ]} ]} in
  response ← post url None (Some payload);
  raise_for_status response;;
  data ← json response;
  getitem data "id".

Definition list_transactions (a : list_transactions_args) : M (value * value) :=
  let params : dict := ∅ in
  let params := when (prev_cursor a) (update "prevCursor" (prev_cursor a)) params in
  let params := when (next_cursor a) (update "nextCursor" (next_cursor a)) params in
  let params := when (created_at a) (update "createdAt" (created_at a)) params in
  let params := when (business_numbers a) (update "businessNumbers" (business_numbers a)) params in
  let params := when (transaction_type a) (update "transactionType" (transaction_type a)) params in
  let params := when (validation_status a) (update "validationStatus" (validation_status a)) params in
  let params := when (delivery_status a) (update "deliveryStatus" (delivery_status a)) params in
  let params := when (acknowledgment_status a) (update "acknowledgmentStatus" (acknowledgment_status a)) params in
  let params := when (sender_isa_id a) (update "senderIsaId" (sender_isa_id a)) params in
  let params := when (receiver_isa_id a) (update "receiverIsaId" (receiver_isa_id a)) params in
  let params := when (reference_identifier a) (update "referenceIdentifier" (reference_identifier a)) params in
  let params := when (sender_interchange_reference_identifier a) (update "senderInterchangeReferenceIdentifier" (sender_interchange_reference_identifier a)) params in
  let params := when (sender_group_reference_identifier a) (update "senderGroupReferenceIdentifier" (sender_group_reference_identifier a)) params in
  let params := when (sender_transaction_reference_identifier a) (update "senderTransactionReferenceIdentifier" (sender_transaction_reference_identifier a)) params in
  let params := when (receiver_interchange_reference_identifier a) (update "receiverInterchangeReferenceIdentifier" (receiver_interchange_reference_identifier a)) params in
  let params := when (receiver_group_reference_identifier a) (update "receiverGroupReferenceIdentifier" (receiver_group_reference_identifier a)) params in
  let params := when (receiver_transaction_reference_identifier a) (update "receiverTransactionReferenceIdentifier" (receiver_transaction_reference_identifier a)) params in
  baseurl ← get_base_url;
  let url := baseurl +:+ "/transactions" in
  response ← get url (Some params);
  raise_for_status response;;
  data ← json response;
  metadata ← getitem data "metadata";
  transactions ← getitem data "data";
  ret (metadata, transactions).

Definition get_transaction (transaction_id : ident) (include_message : value) : M value :=
  baseurl ← get_base_url;
  let url := baseurl +:+ "/transactions/" +:+ format transaction_id in
  let params : dict := ∅ in
  let params := when include_message (update "expand" (VStr "message")) params in
  response ← get url (Some params);
  raise_for_status response;;
  json response.

Definition get_transaction_message (transaction_id : ident) : M value :=
  baseurl ← get_base_url;
  let url := baseurl +:+ "/transactions/" +:+ format transaction_id +:+ "/message" in
  response ← get url None;
  raise_for_status response;;
  json response.

Definition create_acknowledgment (transaction_id : ident) (status errors : value) : M unit :=
  baseurl ← get_base_url;
  let url := baseurl +:+ "/transactions/" +:+ format transaction_id +:+ "/acknowledgments" in
  let payload : dict := {[ "status" := status ]} in
  let payload := when errors (update "errors" errors) payload in
  response ← post url None (Some payload);
  raise_for_status response.

Definition get_acknowledgment (transaction_id : ident) : M value :=
  baseurl ← get_base_url;
  let url := baseurl +:+ "/transactions/" +:+ format transaction_id +:+ "/acknowledgment" in
  response ← get url None;
  raise_for_status response;;
  json response.

Definition get_attachment (attachment_id : ident) : M value :=
  baseurl ← get_base_url;
  let url := baseurl +:+ "/attachments/" +:+ format attachment_id in
  response ← get url None;
  raise_for_status response;;
  json response.

Definition get_attachment_content (attachment_id : ident) : M bytes :=
  baseurl ← get_base_url;
  let url := baseurl +:+ "/attachments/" +:+ format attachment_id +:+ "/content" in
  response ← get url None;
  raise_for_status response;;
  ret (content response).

Definition approve_delivery (delivery_id : ident) (note : value) : M unit :=
  baseurl ← get_base_url;
  let url := baseurl +:+ "/deliveries/" +:+ format delivery_id +:+ "/approve" in
  let payload : dict := ∅ in
  let payload := when note (update "note" note) payload in
  response ← post url None (Some payload);
  raise_for_status response.

Definition fail_delivery (delivery_id : ident) (note : value) : M unit :=
  baseurl ← get_base_url;
  let url := baseurl +:+ "/deliveries/" +:+ format delivery_id +:+ "/fail" in
  let payload : dict := ∅ in
  let payload := when note (update "note" note) payload in
  response ← post url None (Some payload);
  raise_for_status response.

Definition get_delivery (delivery_id : ident) : M value :=
  baseurl ← get_base_url;
  let url := baseurl +:+ "/deliveries/" +:+ format delivery_id in
  response ← get url None;
  raise_for_status response;;
  json response.

Definition generate_label (label_type : ident) (kwargs : dict) : M value :=
  baseurl ← get_base_url;
  let url := baseurl +:+ "/labels/" +:+ format label_type in
  response ← post url None (Some kwargs);
  raise_for_status response;;
  json response.

(** *** The public interface as a whole *)

Inductive call : Type :=
  | GetBaseUrl
  | IsEnabled
  | IsLiveStream
  | GetTransactionsFromPollerBucket (bucket_id : ident) (limit : value)
  | ListRelationships (bucket_id : ident) (auto_send limit prev_cursor next_cursor : value)
  | GetOrganizationDetails
  | ConvertData (origin_content destination_content : value)
  | CreateTransaction (orderful_type message sender_isa_id receiver_isa_id : value)
  | ListTransactions (a : list_transactions_args)
  | GetTransaction (transaction_id : ident) (include_message : value)
  | GetTransactionMessage (transaction_id : ident)
  | CreateAcknowledgment (transaction_id : ident) (status errors : value)
  | GetAcknowledgment (transaction_id : ident)
  | GetAttachment (attachment_id : ident)
  | GetAttachmentContent (attachment_id : ident)
  | ApproveDelivery (delivery_id : ident) (note : value)
  | FailDelivery (delivery_id : ident) (note : value)
  | GetDelivery (delivery_id : ident)
  | GenerateLabel (label_type : ident) (kwargs : dict).

Definition as_value (m : M value) : M returned := v ← m; ret (RValue v).

Definition as_none (m : M unit) : M returned := m;; ret (RValue VNone).

Definition invoke (c : call) : M returned :=
  match c with
  | GetBaseUrl => s ← get_base_url; ret (RValue (VStr s))
  | IsEnabled => as_value is_enabled
  | IsLiveStream => as_value is_live_stream
  | GetTransactionsFromPollerBucket bucket_id limit =>
      as_value (get_transactions_from_poller_bucket bucket_id limit)
  | ListRelationships bucket_id auto_send limit prev_cursor next_cursor =>
      as_value (list_relationships bucket_id auto_send limit prev_cursor next_cursor)
  | GetOrganizationDetails => as_value get_organization_details
  | ConvertData origin_content destination_content =>
      as_value (convert_data origin_content destination_content)
  | CreateTransaction orderful_type message sender_isa_id receiver_isa_id =>
      as_value (create_transaction orderful_type message sender_isa_id receiver_isa_id)
  | ListTransactions a =>
      p ← list_transactions a; ret (RTuple p.1 p.2)
  | GetTransaction transaction_id include_message =>
      as_value (get_transaction transaction_id include_message)
  | GetTransactionMessage transaction_id =>
      as_value (get_transaction_message transaction_id)
  | CreateAcknowledgment transaction_id status errors =>
      as_none (create_acknowledgment transaction_id status errors)
  | GetAcknowledgment transaction_id => as_value (get_acknowledgment transaction_id)
  | GetAttachment attachment_id => as_value (get_attachment attachment_id)
  | GetAttachmentContent attachment_id =>
      b ← get_attachment_content attachment_id; ret (RBytes b)
  | ApproveDelivery delivery_id note => as_none (approve_delivery delivery_id note)
  | FailDelivery delivery_id note => as_none (fail_delivery delivery_id note)
  | GetDelivery delivery_id => as_value (get_delivery delivery_id)
  | GenerateLabel label_type kwargs => as_value (generate_label label_type kwargs)
  end.

(** A client used for a while: the calls of [cs] made one after the
    other, whatever each of them returns or raises. *)
Fixpoint session (cs : list call) (w : World) : World :=
  match cs with
  | [] => w
  | c :: cs' => session cs' (invoke c w).2
  end.

(** How each method ends, read off its last statements: no request at
    all; [return response.json()]; a field picked out of the decoded
    body; [return response.content]; or no [return] after
    [raise_for_status()]. *)
Inductive ending : Type := Local | Decodes | Extracts | Raw | Silent.

Definition ending_of (c : call) : ending :=
  match c with
  | GetBaseUrl | IsEnabled | IsLiveStream => Local
  | CreateTransaction _ _ _ _ | ListTransactions _ => Extracts
  | GetAttachmentContent _ => Raw
  | CreateAcknowledgment _ _ _ | ApproveDelivery _ _ | FailDelivery _ _ => Silent
  | _ => Decodes
  end.

(** The methods that go through [self.client]. *)
Definition remote (c : call) : bool :=
  match ending_of c with
  | Local => false
  | _ => true
  end.

(** ** Properties *)

Example to_camel_prev_cursor : to_camel "prev_cursor" = "prevCursor".
Proof. reflexivity. Qed.

Lemma emitted_app {A} (m : M A) (w : World) (evs : list Event) :
  wire (m w).2 = wire w ++ evs → emitted m w = evs.
Proof. intros H. unfold emitted. rewrite H. apply drop_app_length. Qed.

Lemma requests_app {A} (m : M A) (w : World) (evs : list Event) :
  wire (m w).2 = wire w ++ evs → requests m w = requests_of evs.
Proof. intros H. unfold requests. by rewrite (emitted_app _ _ _ H). Qed.

Ltac unfold_client :=
  unfold as_value, as_none,
    get_transactions_from_poller_bucket, list_relationships,
    get_organization_details, convert_data, create_transaction,
    list_transactions, get_transaction, get_transaction_message,
    create_acknowledgment, get_acknowledgment, get_attachment,
    get_attachment_content, approve_delivery, fail_delivery, get_delivery,
    generate_label, is_enabled, is_live_stream, get_base_url,
    mbind, M_bind, bind, mret, M_ret, get, post, request, raise_for_status,
    json, getitem, getattr;
  cbn beta iota zeta delta [fst snd self wire ret raise].

(** Name the request a goal talks about, so that case analysis on the
    run does not look inside its dictionaries. *)
Ltac name_request r :=
  match goal with
  | |- context [mkRequest ?m ?u ?h ?p ?j] =>
      set (r := mkRequest m u h p j) in *
  end.

Ltac wire_tail := rewrite <- ?app_assoc, ?drop_app_length.

Ltac run_cases :=
  repeat first
    [ progress unfold ret, raise in *
    | progress cbn beta iota zeta delta [fst snd self wire] in *
    | case_match
    | progress simplify_eq ].

(** Every call either stays local, or sends one request and then depends
    on the status of the answer. *)
Lemma invoke_cases (c : call) (w : World) :
  ((c = GetBaseUrl ∨ c = IsEnabled ∨ c = IsLiveStream) ∧
   ∃ v, invoke c w = (Return v, w)) ∨
  (∃ r, let s := client (self w) in
        let resp := server (wire w) s r in
        if failure_status resp
        then invoke c w = (Raise (HTTPError resp), mkWorld (self w) (wire w ++ [Sent s r]))
        else ∃ o evs, invoke c w = (o, mkWorld (self w) (wire w ++ Sent s r :: evs)) ∧
                      requests_of evs = []).
Proof.
  destruct c;
    [ left; split; [ tauto | eexists; reflexivity ]
    | left; split; [ tauto | eexists; reflexivity ]
    | left; split; [ tauto | eexists; reflexivity ]
    | right .. ].
  all: unfold invoke; unfold_client; name_request r; exists r.
  all: cbn zeta; destruct (failure_status _); [ reflexivity | ].
  all: run_cases; do 2 eexists; (split; [ by rewrite <- ?app_assoc | reflexivity ]).
Qed.

(** The requests of a call are fixed by the client object and the
    arguments: what is on the wire already plays no part. *)
Lemma invoke_requests (c : call) (o : OrderfulAPI) :
  ∃ rs, ∀ evs, requests (invoke c) (mkWorld o evs) = rs.
Proof.
  destruct c; eexists; intros evs; unfold requests, emitted, invoke;
    unfold_client; try name_request r; run_cases;
    rewrite ?drop_all; wire_tail; simpl; reflexivity.
Qed.

Lemma invoke_self (c : call) (w : World) : self (invoke c w).2 = self w.
Proof.
  destruct (invoke_cases c w) as [ [_ [v ->]] | [r H] ]; [ reflexivity | ].
  cbn zeta in H. destruct (failure_status _).
  - by rewrite H.
  - by destruct H as (o & evs & -> & _).
Qed.

Lemma session_self (cs : list call) (w : World) : self (session cs w) = self w.
Proof.
  revert w; induction cs as [ | c cs IH ]; intros w; [ reflexivity | ].
  cbn [session]. by rewrite IH, invoke_self.
Qed.

Lemma invoke_requests_stateless (c : call) (w w' : World) :
  self w = self w' → requests (invoke c) w = requests (invoke c) w'.
Proof.
  destruct w as [o evs], w' as [o' evs']; cbn [self]; intros <-.
  destruct (invoke_requests c o) as [rs H]. by rewrite !H.
Qed.

(** C2: every method either is one of the three that stay local and
    involve no response at all, or begins by sending one request; and when
    the service answers that request with a status from 400 to 599, the
    call raises [HTTPError] carrying that response, the request being the
    only thing that has happened on the wire: the body was not decoded
    and nothing was sent again. *)
Theorem failure_status_raises_http_error (c : call) (w : World) :
  ((c = GetBaseUrl ∨ c = IsEnabled ∨ c = IsLiveStream) ∧
   ∃ v, invoke c w = (Return v, w)) ∨
  ∃ r : Request,
    let s := client (self w) in
    let resp := server (wire w) s r in
    (∃ rest, emitted (invoke c) w = Sent s r :: rest) ∧
    (failure_status resp = true →
     invoke c w
     = (Raise (HTTPError resp), mkWorld (self w) (wire w ++ [Sent s r]))).
Proof.
  destruct (invoke_cases c w) as [ Hlocal | [r H] ]; [ by left | right ].
  exists r. cbn zeta in *. unfold emitted.
  destruct (failure_status (server (wire w) (client (self w)) r)) eqn:Hst.
  - split; [ | done ]. rewrite H. cbn [snd wire].
    rewrite drop_app_length. eauto.
  - split; [ | done ]. destruct H as (o & evs & -> & _). cbn [snd wire].
    rewrite drop_app_length. eauto.
Qed.

(** The same first step, told apart by the name of the method. *)
Lemma remote_calls_send_first (c : call) (w : World) :
  c ≠ GetBaseUrl → c ≠ IsEnabled → c ≠ IsLiveStream →
  ∃ r rest, emitted (invoke c) w = Sent (client (self w)) r :: rest.
Proof.
  intros H1 H2 H3. unfold emitted.
  destruct (invoke_cases c w) as [ [Hc _] | [r H] ].
  - tauto.
  - exists r. cbn zeta in H. destruct (failure_status _).
    + rewrite H. cbn [snd wire]. rewrite drop_app_length. eauto.
    + destruct H as (o & evs & -> & _). cbn [snd wire].
      rewrite drop_app_length. eauto.
Qed.

(** C8: no call changes the client object (stream, api key, default
    headers, session), however many calls were made before; the request a
    call hands to the session is the same after any history of calls as on
    the untouched client; and a client built by the constructor keeps the
    stream, the api key and the three default headers it was given. *)
Theorem configuration_is_immutable (cs : list call) (c : call) (w : World) :
  self (invoke c w).2 = self w ∧
  self (session cs w) = self w ∧
  requests (invoke c) (session cs w) = requests (invoke c) w ∧
  ∀ stream0 key0 : value,
    let o := self (session cs (mkWorld (init stream0 key0) [])) in
    stream o = stream0 ∧
    orderful_api_key o = key0 ∧
    api_headers o = {[ "accept" := VStr "application/json";
                       "content-type" := VStr "application/json";
                       "orderful-api-key" := key0 ]} ∧
    headers (client o) !! "accept" = Some (VStr "application/json") ∧
    headers (client o) !! "content-type" = Some (VStr "application/json") ∧
    headers (client o) !! "orderful-api-key" = Some key0.
Proof.
  split; [ apply invoke_self | ].
  split; [ apply session_self | ].
  split; [ apply invoke_requests_stateless, session_self | ].
  intros stream0 key0 o. subst o. rewrite session_self.
  cbn [self init stream orderful_api_key api_headers client headers].
  do 3 (split; [ reflexivity | ]).
  repeat split; apply lookup_union_Some_l; by simplify_map_eq.
Qed.

(** *** Guarded updates of a dictionary *)

Lemma lookup_when_update (c v : value) (k : string) (d : dict) :
  when c (update k v) d !! k = if truthy c then Some v else d !! k.
Proof. unfold when, update. destruct (truthy c); [ apply lookup_insert_eq | done ]. Qed.

Lemma lookup_when_update_ne (c v : value) (k k' : string) (d : dict) :
  k' ≠ k → when c (update k' v) d !! k = d !! k.
Proof. intros Hne. unfold when, update. destruct (truthy c); [ by apply lookup_insert_ne | done ]. Qed.

Lemma supplied_truthy (v : value) : truthy v = true → supplied v = Some v.
Proof. unfold supplied. by intros ->. Qed.

Lemma supplied_falsy (v : value) : truthy v = false → supplied v = None.
Proof. unfold supplied. by intros ->. Qed.

Lemma supplied_default : supplied default_arg = None.
Proof. reflexivity. Qed.

Lemma lookup_guarded (v : value) (k : string) (d : dict) :
  d !! k = None → when v (update k v) d !! k = supplied v.
Proof. intros Hd. rewrite lookup_when_update. unfold supplied. by rewrite Hd. Qed.

Lemma fill_cons (a : list_transactions_args) (f : filter) (fs : list filter) (p : dict) :
  fill a (f :: fs) p = fill a fs (when (arg_value f a) (update (query_key f) (arg_value f a)) p).
Proof. reflexivity. Qed.

Lemma fill_lookup_other (a : list_transactions_args) (fs : list filter) (p : dict) (k : string) :
  k ∉ query_key <$> fs → fill a fs p !! k = p !! k.
Proof.
  revert p; induction fs as [ | f fs IH ]; intros p Hk; [ done | ].
  rewrite fmap_cons, not_elem_of_cons in Hk. destruct Hk as [Hne Hk].
  rewrite fill_cons, IH by done. by apply lookup_when_update_ne.
Qed.

Lemma fill_lookup (a : list_transactions_args) (fs : list filter) (p : dict) (f : filter) :
  NoDup (query_key <$> fs) → f ∈ fs →
  fill a fs p !! query_key f
  = if truthy (arg_value f a) then Some (arg_value f a) else p !! query_key f.
Proof.
  revert p; induction fs as [ | g fs IH ]; intros p Hnd Hf; [ by apply elem_of_nil in Hf | ].
  rewrite fmap_cons, NoDup_cons in Hnd. destruct Hnd as [Hg Hnd].
  rewrite fill_cons.
  apply elem_of_cons in Hf as [-> | Hf].
  - rewrite fill_lookup_other by done. apply lookup_when_update.
  - rewrite IH by done. rewrite lookup_when_update_ne; [ done | ].
    intros Heq. apply Hg. rewrite Heq. by apply list_elem_of_fmap_2.
Qed.

Lemma fill_lookup_Some (a : list_transactions_args) (fs : list filter) (p : dict)
    (k : string) (v : value) :
  fill a fs p !! k = Some v →
  p !! k = Some v ∨
  ∃ f, f ∈ fs ∧ k = query_key f ∧ truthy (arg_value f a) = true ∧ v = arg_value f a.
Proof.
  revert p; induction fs as [ | g fs IH ]; intros p; [ by left | ].
  rewrite fill_cons. intros H.
  apply IH in H as [H | (f & Hf & -> & Ht & ->)].
  - unfold when, update in H. destruct (truthy (arg_value g a)) eqn:Ht; [ | by left ].
    destruct (decide (query_key g = k)) as [<- | Hne].
    + rewrite lookup_insert_eq in H. simplify_eq. right. exists g.
      split; [ apply elem_of_cons; by left | done ].
    + rewrite lookup_insert_ne in H by done. by left.
  - right. exists f. split; [ apply elem_of_cons; by right | done ].
Qed.

Lemma filters_complete (f : filter) : f ∈ filters.
Proof. destruct f; unfold filters; set_solver. Qed.

Lemma query_keys_distinct : NoDup (query_key <$> filters).
Proof. apply (bool_decide_unpack _). by vm_compute. Qed.

Lemma query_key_inj (f g : filter) : query_key f = query_key g → f = g.
Proof. destruct f, g; cbn [query_key]; intros H; first [ reflexivity | discriminate H ]. Qed.

Lemma query_key_camel (f : filter) : query_key f = to_camel (arg_name f).
Proof. by destruct f. Qed.

(** *** The request each method sends *)

Ltac sends_one :=
  unfold requests, emitted; unfold_client;
  match goal with
  | |- context [Sent _ (mkRequest ?m ?u ?h ?p ?j)] =>
      set (r' := mkRequest m u h p j)
  end;
  run_cases; wire_tail; reflexivity.

Lemma get_transactions_from_poller_bucket_sends (bucket_id : ident) (limit : value) (w : World) :
  requests (get_transactions_from_poller_bucket bucket_id limit) w
  = [ mkRequest GET ("https://api.orderful.com/v3/polling-buckets/" +:+ format bucket_id)
        None (Some (when limit (update "limit" limit) ∅)) None ].
Proof. sends_one. Qed.

Lemma list_relationships_sends
    (bucket_id : ident) (auto_send limit prev_cursor next_cursor : value) (w : World) :
  requests (list_relationships bucket_id auto_send limit prev_cursor next_cursor) w
  = [ mkRequest GET ("https://api.orderful.com/v3/relationships/" +:+ format bucket_id)
        None
        (Some (when next_cursor (update "next_cursor" next_cursor)
                (when prev_cursor (update "prev_cursor" prev_cursor)
                  (when limit (update "limit" limit)
                    (when auto_send (update "auto_send" auto_send) ∅)))))
        None ].
Proof. sends_one. Qed.

Lemma create_transaction_sends
    (orderful_type message sender_isa_id receiver_isa_id : value) (w : World) :
  requests (create_transaction orderful_type message sender_isa_id receiver_isa_id) w
  = [ mkRequest POST "https://api.orderful.com/v3/transactions" None None
        (Some {[ "type" := VDict {[ "name" := orderful_type ]};
                 "stream" := stream (self w);
                 "message" := message;
                 "sender" := VDict {[ "isaId" := sender_isa_id ]};
                 "receiver" := VDict {[ "isaId" := receiver_isa_id ]} ]}) ].
Proof. sends_one. Qed.

Lemma list_transactions_sends (a : list_transactions_args) (w : World) :
  requests (list_transactions a) w
  = [ mkRequest GET "https://api.orderful.com/v3/transactions"
        None (Some (fill a filters ∅)) None ].
Proof. sends_one. Qed.

Lemma get_transaction_sends (transaction_id : ident) (include_message : value) (w : World) :
  requests (get_transaction transaction_id include_message) w
  = [ mkRequest GET ("https://api.orderful.com/v3/transactions/" +:+ format transaction_id)
        None (Some (when include_message (update "expand" (VStr "message")) ∅)) None ].
Proof. sends_one. Qed.

Lemma create_acknowledgment_sends (transaction_id : ident) (status errors : value) (w : World) :
  requests (create_acknowledgment transaction_id status errors) w
  = [ mkRequest POST
        ("https://api.orderful.com/v3/transactions/" +:+ format transaction_id +:+ "/acknowledgments")
        None None
        (Some (when errors (update "errors" errors) {[ "status" := status ]})) ].
Proof. sends_one. Qed.

Lemma approve_delivery_sends (delivery_id : ident) (note : value) (w : World) :
  requests (approve_delivery delivery_id note) w
  = [ mkRequest POST
        ("https://api.orderful.com/v3/deliveries/" +:+ format delivery_id +:+ "/approve")
        None None (Some (when note (update "note" note) ∅)) ].
Proof. sends_one. Qed.

Lemma fail_delivery_sends (delivery_id : ident) (note : value) (w : World) :
  requests (fail_delivery delivery_id note) w
  = [ mkRequest POST
        ("https://api.orderful.com/v3/deliveries/" +:+ format delivery_id +:+ "/fail")
        None None (Some (when note (update "note" note) ∅)) ].
Proof. sends_one. Qed.

Lemma generate_label_sends (label_type : ident) (kwargs : dict) (w : World) :
  requests (generate_label label_type kwargs) w
  = [ mkRequest POST ("https://api.orderful.com/v3/labels/" +:+ format label_type)
        None None (Some kwargs) ].
Proof. sends_one. Qed.

(** C7: a successful [get_attachment_content] returns the bytes of the
    response as they are, and nothing is decoded on the way. *)
Theorem get_attachment_content_returns_raw_bytes (attachment_id : ident) (w : World) :
  ∃ r : Request,
    requests (get_attachment_content attachment_id) w = [r] ∧
    req_method r = GET ∧
    req_url r = "https://api.orderful.com/v3/attachments/" +:+ format attachment_id +:+ "/content" ∧
    let resp := server (wire w) (client (self w)) r in
    failure_status resp = false →
    get_attachment_content attachment_id w
    = (Return (content resp), mkWorld (self w) (wire w ++ [Sent (client (self w)) r])).
Proof.
  exists (mkRequest GET ("https://api.orderful.com/v3/attachments/" +:+ format attachment_id +:+ "/content") None None None).
  split; [ | split; [ | split ] ]; [ | reflexivity | reflexivity | ].
  - unfold requests, emitted. unfold_client. name_request r.
    run_cases; by wire_tail.
  - intros resp Hok. unfold_client. name_request r.
    change (failure_status (server (wire w) (client (self w)) r) = false) in Hok.
    by rewrite Hok.
Qed.

Ltac open_dict := cbv [query body from_option id req_params req_json].

Ltac skip_other_keys := rewrite ?lookup_when_update_ne by done.

(** C1 (amended): every optional argument is sent under its key exactly
    when it is truthy, and then with the value supplied; a falsy value,
    the default [False] included, leaves the key out.  The one exception
    is [include_message] of [get_transaction], which is only a switch: a
    truthy value puts the fixed string "message" under the key [expand]. *)
Theorem optional_arguments_follow_truthy_inclusion (w : World) :
  (∀ bucket_id limit, ∃ r,
     requests (get_transactions_from_poller_bucket bucket_id limit) w = [r] ∧
     query r !! "limit" = supplied limit) ∧
  (∀ bucket_id auto_send limit prev_cursor next_cursor, ∃ r,
     requests (list_relationships bucket_id auto_send limit prev_cursor next_cursor) w = [r] ∧
     query r !! "auto_send" = supplied auto_send ∧
     query r !! "limit" = supplied limit ∧
     query r !! "prev_cursor" = supplied prev_cursor ∧
     query r !! "next_cursor" = supplied next_cursor) ∧
  (∀ a, ∃ r,
     requests (list_transactions a) w = [r] ∧
     ∀ f, query r !! query_key f = supplied (arg_value f a)) ∧
  (∀ transaction_id include_message, ∃ r,
     requests (get_transaction transaction_id include_message) w = [r] ∧
     query r !! "expand" = if truthy include_message then Some (VStr "message") else None) ∧
  (∀ transaction_id status errors, ∃ r,
     requests (create_acknowledgment transaction_id status errors) w = [r] ∧
     body r !! "errors" = supplied errors) ∧
  (∀ delivery_id note, ∃ r,
     requests (approve_delivery delivery_id note) w = [r] ∧
     body r !! "note" = supplied note) ∧
  (∀ delivery_id note, ∃ r,
     requests (fail_delivery delivery_id note) w = [r] ∧
     body r !! "note" = supplied note).
Proof.
  repeat apply conj; intros.
  - eexists; split; [ apply get_transactions_from_poller_bucket_sends | ].
    by apply lookup_guarded.
  - eexists; split; [ apply list_relationships_sends | ].
    open_dict.
    repeat apply conj; skip_other_keys; apply lookup_guarded;
      skip_other_keys; apply lookup_empty.
  - eexists; split; [ apply list_transactions_sends | ].
    intros f. open_dict.
    rewrite fill_lookup by auto using query_keys_distinct, filters_complete.
    by rewrite lookup_empty.
  - eexists; split; [ apply get_transaction_sends | ].
    open_dict. by rewrite lookup_when_update, lookup_empty.
  - eexists; split; [ apply create_acknowledgment_sends | ].
    by apply lookup_guarded.
  - eexists; split; [ apply approve_delivery_sends | ]. by apply lookup_guarded.
  - eexists; split; [ apply fail_delivery_sends | ]. by apply lookup_guarded.
Qed.

(** C3 (amended): [list_transactions] has seventeen optional filters.
    Each is stored under the camelCase form of its snake_case name, no two
    under the same key, and the outgoing query holds a key exactly when
    the filter behind it is truthy, with the value supplied. *)
Theorem list_transactions_query_is_camel_case (a : list_transactions_args) (w : World) :
  NoDup filters ∧ (∀ f, f ∈ filters) ∧ length filters = 17%nat ∧
  (∀ f, query_key f = to_camel (arg_name f)) ∧
  (∀ f g, query_key f = query_key g → f = g) ∧
  ∃ r,
    requests (list_transactions a) w = [r] ∧
    req_method r = GET ∧
    req_url r = "https://api.orderful.com/v3/transactions" ∧
    (∀ f, query r !! query_key f = supplied (arg_value f a)) ∧
    (∀ k v, query r !! k = Some v →
       ∃ f, k = query_key f ∧ truthy (arg_value f a) = true ∧ v = arg_value f a).
Proof.
  split; [ apply (NoDup_fmap_1 query_key), query_keys_distinct | ].
  split; [ apply filters_complete | ].
  split; [ reflexivity | ].
  split; [ apply query_key_camel | ].
  split; [ apply query_key_inj | ].
  eexists; split; [ apply list_transactions_sends | ].
  do 2 (split; [ reflexivity | ]).
  open_dict. split.
  - intros f. rewrite fill_lookup by auto using query_keys_distinct, filters_complete.
    by rewrite lookup_empty.
  - intros k v H. apply fill_lookup_Some in H as [H | (f & _ & H)].
    + by rewrite lookup_empty in H.
    + by exists f.
Qed.

(** C4: [create_transaction] sends one request, a POST to
    [/transactions] whose JSON body has the five keys [type], [stream],
    [message], [sender] and [receiver] and no other, with the client's
    stream and the two ISA ids wrapped under [isaId]; when the answer is
    not a failure and decodes to an object with an [id], the call returns
    that [id], and it returns nothing else. *)
Theorem create_transaction_posts_and_returns_id
    (orderful_type message sender_isa_id receiver_isa_id : value) (w : World) :
  ∃ r : Request,
    requests (create_transaction orderful_type message sender_isa_id receiver_isa_id) w = [r] ∧
    req_method r = POST ∧
    req_url r = "https://api.orderful.com/v3/transactions" ∧
    dom (body r) = {[ "type"; "stream"; "message"; "sender"; "receiver" ]} ∧
    body r !! "type" = Some (VDict {[ "name" := orderful_type ]}) ∧
    body r !! "stream" = Some (stream (self w)) ∧
    body r !! "message" = Some message ∧
    body r !! "sender" = Some (VDict {[ "isaId" := sender_isa_id ]}) ∧
    body r !! "receiver" = Some (VDict {[ "isaId" := receiver_isa_id ]}) ∧
    let resp := server (wire w) (client (self w)) r in
    (∀ (d : dict) (id : value),
       failure_status resp = false →
       json_loads (content resp) = Some (VDict d) →
       d !! "id" = Some id →
       create_transaction orderful_type message sender_isa_id receiver_isa_id w
       = (Return id,
          mkWorld (self w) (wire w ++ [Sent (client (self w)) r; Decoded resp]))) ∧
    (∀ v : value,
       (create_transaction orderful_type message sender_isa_id receiver_isa_id w).1 = Return v →
       ∃ d : dict, failure_status resp = false ∧
                   json_loads (content resp) = Some (VDict d) ∧ d !! "id" = Some v).
Proof.
  unfold requests, emitted; unfold_client; name_request r; exists r.
  split; [ run_cases; by wire_tail | ].
  do 2 (split; [ reflexivity | ]).
  split; [ unfold r; open_dict; rewrite !dom_insert_L, dom_singleton_L; set_solver | ].
  do 5 (split; [ by unfold r; open_dict; simplify_map_eq | ]).
  cbn zeta. split.
  - intros d id Hok Hjson Hid. rewrite Hok. run_cases. by rewrite <- app_assoc.
  - intros v. run_cases; intros; simplify_eq. eauto.
Qed.

(** C5: when the answer to [list_transactions] is not a failure and
    decodes to an object with [metadata] and [data], the call returns the
    pair of the two, and it returns nothing else. *)
Theorem list_transactions_returns_metadata_and_data (a : list_transactions_args) (w : World) :
  ∃ r : Request,
    requests (list_transactions a) w = [r] ∧
    req_method r = GET ∧
    req_url r = "https://api.orderful.com/v3/transactions" ∧
    let resp := server (wire w) (client (self w)) r in
    (∀ (d : dict) (metadata data : value),
       failure_status resp = false →
       json_loads (content resp) = Some (VDict d) →
       d !! "metadata" = Some metadata →
       d !! "data" = Some data →
       list_transactions a w
       = (Return (metadata, data),
          mkWorld (self w) (wire w ++ [Sent (client (self w)) r; Decoded resp]))) ∧
    (∀ p : value * value,
       (list_transactions a w).1 = Return p →
       ∃ d : dict, failure_status resp = false ∧
                   json_loads (content resp) = Some (VDict d) ∧
                   d !! "metadata" = Some p.1 ∧ d !! "data" = Some p.2).
Proof.
  unfold requests, emitted; unfold_client; name_request r; exists r.
  split; [ run_cases; by wire_tail | ].
  do 2 (split; [ reflexivity | ]).
  cbn zeta. split.
  - intros d metadata data Hok Hjson Hm Hd. rewrite Hok. run_cases.
    by rewrite <- app_assoc.
  - intros p. run_cases; intros; simplify_eq. eauto.
Qed.

(** C9: the field lookups are partial.  For an answer that is not a
    failure and decodes to an object, [create_transaction] raises
    [KeyError] when [id] is missing, and [list_transactions] raises
    [KeyError] when [metadata] is missing, or when [data] is; when the
    keys are there both calls return, so the error cannot occur. *)
Theorem field_extraction_is_partial (w : World) :
  (∀ orderful_type message sender_isa_id receiver_isa_id, ∃ r : Request,
     requests (create_transaction orderful_type message sender_isa_id receiver_isa_id) w = [r] ∧
     let resp := server (wire w) (client (self w)) r in
     let result := (create_transaction orderful_type message sender_isa_id receiver_isa_id w).1 in
     ∀ d : dict,
       failure_status resp = false →
       json_loads (content resp) = Some (VDict d) →
       (d !! "id" = None → result = Raise (KeyError "id")) ∧
       (∀ v, d !! "id" = Some v → result = Return v)) ∧
  (∀ a, ∃ r : Request,
     requests (list_transactions a) w = [r] ∧
     let resp := server (wire w) (client (self w)) r in
     let result := (list_transactions a w).1 in
     ∀ d : dict,
       failure_status resp = false →
       json_loads (content resp) = Some (VDict d) →
       (d !! "metadata" = None → result = Raise (KeyError "metadata")) ∧
       (is_Some (d !! "metadata") → d !! "data" = None →
        result = Raise (KeyError "data")) ∧
       (∀ m t, d !! "metadata" = Some m → d !! "data" = Some t →
        result = Return (m, t))).
Proof.
  split; intros.
  - unfold requests, emitted; unfold_client; name_request r; exists r.
    split; [ run_cases; by wire_tail | ].
    cbn zeta. intros d Hok Hjson. rewrite Hok.
    split; [ intros Hid | intros v Hid ]; by run_cases.
  - unfold requests, emitted; unfold_client; name_request r; exists r.
    split; [ run_cases; by wire_tail | ].
    cbn zeta. intros d Hok Hjson. rewrite Hok.
    split; [ | split ];
      [ intros Hm | intros [m Hm] Hd | intros m t Hm Hd ]; by run_cases.
Qed.

(** C10: [generate_label] posts its keyword arguments as they are: the
    JSON body is the dictionary the caller passed, so every key is sent
    with the value supplied, falsy values included, and nothing is left
    out or added. *)
Theorem generate_label_sends_every_keyword_argument
    (label_type : ident) (kwargs : dict) (w : World) :
  ∃ r : Request,
    requests (generate_label label_type kwargs) w = [r] ∧
    req_method r = POST ∧
    req_url r = "https://api.orderful.com/v3/labels/" +:+ format label_type ∧
    req_json r = Some kwargs ∧
    (∀ (k : string) (v : value), kwargs !! k = Some v → body r !! k = Some v) ∧
    (∀ (k : string) (v : value),
       kwargs !! k = Some v → truthy v = false → body r !! k = Some v) ∧
    (∀ k : string, kwargs !! k = None → body r !! k = None).
Proof.
  eexists; split; [ apply generate_label_sends | ].
  do 3 (split; [ reflexivity | ]). open_dict.
  split; [ | split ]; intros; assumption.
Qed.


(** ** Further properties of the client *)

Lemma requests_of_app (evs evs' : list Event) :
  requests_of (evs ++ evs') = requests_of evs ++ requests_of evs'.
Proof. apply omap_app. Qed.

(** X1: the ten methods that end in [return response.json()] hand the
    decoded body back as it is, whatever its shape; a body that is not
    JSON raises [JSONDecodeError] although the status was fine. *)
Theorem decoding_methods_return_the_body (c : call) (w : World) :
  ending_of c = Decodes →
  ∃ r : Request,
    requests (invoke c) w = [r] ∧
    let resp := server (wire w) (client (self w)) r in
    failure_status resp = false →
    (∀ v : value,
       json_loads (content resp) = Some v →
       invoke c w
       = (Return (RValue v),
          mkWorld (self w) (wire w ++ [Sent (client (self w)) r; Decoded resp]))) ∧
    (json_loads (content resp) = None →
     (invoke c w).1 = Raise (JSONDecodeError resp)).
Proof.
  intros Hc. destruct c; try discriminate Hc.
  all: unfold requests, emitted, invoke; unfold_client; name_request r; exists r.
  all: split; [ run_cases; by wire_tail | ].
  all: cbn zeta; intros Hok; rewrite Hok.
  all: split; [ intros v Hj | intros Hj ]; run_cases; by rewrite <- ?app_assoc.
Qed.

(** X2: [create_acknowledgment], [approve_delivery] and [fail_delivery]
    return [None] on any answer that is not a failure, and never look at
    the body: nothing is decoded, so a body that is not JSON does no
    harm. *)
Theorem silent_methods_return_none (c : call) (w : World) :
  ending_of c = Silent →
  ∃ r : Request,
    requests (invoke c) w = [r] ∧
    req_method r = POST ∧
    let resp := server (wire w) (client (self w)) r in
    failure_status resp = false →
    invoke c w
    = (Return (RValue VNone), mkWorld (self w) (wire w ++ [Sent (client (self w)) r])).
Proof.
  intros Hc. destruct c; try discriminate Hc.
  all: unfold requests, emitted, invoke; unfold_client; name_request r; exists r.
  all: split; [ run_cases; by wire_tail | ].
  all: split; [ reflexivity | ].
  all: cbn zeta; intros Hok; rewrite Hok; by run_cases.
Qed.

(** X3: [create_transaction] and [list_transactions] index the decoded
    body with a string.  When the body is JSON but not an object the call
    raises [TypeError]; when it is not JSON at all it raises
    [JSONDecodeError]. *)
Theorem extraction_needs_an_object (c : call) (w : World) :
  ending_of c = Extracts →
  ∃ r : Request,
    requests (invoke c) w = [r] ∧
    let resp := server (wire w) (client (self w)) r in
    failure_status resp = false →
    (∀ v : value,
       json_loads (content resp) = Some v →
       (∀ d, v ≠ VDict d) →
       (invoke c w).1 = Raise TypeError) ∧
    (json_loads (content resp) = None →
     (invoke c w).1 = Raise (JSONDecodeError resp)).
Proof.
  intros Hc. destruct c; try discriminate Hc.
  all: unfold requests, emitted, invoke; unfold_client; name_request r; exists r.
  all: split; [ run_cases; by wire_tail | ].
  all: cbn zeta; intros Hok; rewrite Hok.
  all: split; [ intros v Hj Hv | intros Hj ]; run_cases; try done.
  all: by edestruct Hv.
Qed.

(** X4: [HTTPError] comes from [raise_for_status] alone: when a call
    raises it, the response it carries is the answer to the call's one
    request and its status lies between 400 and 599. *)
Theorem http_error_only_on_failure_status (c : call) (w : World) (resp : Response) :
  (invoke c w).1 = Raise (HTTPError resp) →
  400 ≤ status_code resp < 600 ∧
  ∃ r : Request,
    requests (invoke c) w = [r] ∧
    resp = server (wire w) (client (self w)) r.
Proof.
  assert (∀ x, failure_status x = true → 400 ≤ status_code x < 600) as Hrange.
  { intros x Hx. unfold failure_status in Hx. apply andb_true_iff in Hx as [H1 H2].
    apply Z.leb_le in H1. apply Z.ltb_lt in H2. done. }
  destruct c; unfold requests, emitted, invoke; unfold_client;
    try name_request r; run_cases; intros H; simplify_eq.
  all: split; [ by apply Hrange | exists r; by wire_tail ].
Qed.

Lemma invoke_wire (c : call) (w : World) :
  wire (invoke c w).2 = wire w ++ emitted (invoke c) w.
Proof.
  unfold emitted.
  destruct (invoke_cases c w) as [ [_ [v ->]] | [r H] ].
  - cbn [snd]. by rewrite drop_all, app_nil_r.
  - cbn zeta in H. destruct (failure_status _).
    + rewrite H. cbn [snd wire]. by rewrite drop_app_length.
    + destruct H as (o & evs & -> & _). cbn [snd wire]. by rewrite drop_app_length.
Qed.

Lemma invoke_requests_count (c : call) (w : World) :
  length (requests (invoke c) w) = if remote c then 1%nat else 0%nat.
Proof.
  destruct c; unfold requests, emitted, invoke; unfold_client;
    try name_request r; run_cases; rewrite ?drop_all; by wire_tail.
Qed.

(** X6: a method sends exactly one request when it goes through the
    session and none when it is local, whatever the answer is; over a
    sequence of calls the requests on the wire grow by the number of
    remote calls, so nothing is retried, batched or skipped, and no call
    is held back by [is_enabled]. *)
Theorem one_request_per_remote_call (cs : list call) (c : call) (w : World) :
  length (requests (invoke c) w) = (if remote c then 1%nat else 0%nat) ∧
  length (requests_of (wire (session cs w)))
  = (length (requests_of (wire w)) + length (List.filter remote cs))%nat.
Proof.
  split; [ apply invoke_requests_count | ].
  revert w; induction cs as [ | c' cs IH ]; intros w.
  - cbn. lia.
  - cbn [session List.filter]. rewrite IH, invoke_wire, requests_of_app, length_app.
    fold (requests (invoke c') w). rewrite invoke_requests_count.
    destruct (remote c'); cbn [length]; lia.
Qed.

Lemma requests_of_sent (s : Session) (r : Request) (evs : list Event) :
  requests_of (Sent s r :: evs) = r :: requests_of evs.
Proof. reflexivity. Qed.

Lemma requests_of_decoded (resp : Response) (evs : list Event) :
  requests_of (Decoded resp :: evs) = requests_of evs.
Proof. reflexivity. Qed.

Lemma under_base_url (path : string) :
  "https://api.orderful.com/v3" +:+ String "/" path
  = "https://api.orderful.com/v3/" +:+ path.
Proof. reflexivity. Qed.

Lemma invoke_sent (c : call) (w : World) (s : Session) (r : Request) :
  Sent s r ∈ emitted (invoke c) w →
  s = client (self w) ∧
  ∃ path, req_url r = "https://api.orderful.com/v3/" +:+ path.
Proof.
  destruct c; unfold emitted, invoke; unfold_client; try name_request r0;
    run_cases; rewrite ?drop_all; wire_tail; intros H.
  all: repeat first [ apply elem_of_nil in H; contradiction
                    | apply elem_of_cons in H as [H | H] ];
    try discriminate H.
  all: injection H as -> ->; split; [ reflexivity | ].
  all: unfold r0; cbn [req_url]; eexists; apply under_base_url.
Qed.

(** X7: every request that a client built by the constructor ever sends,
    in any sequence of calls, goes to a URL under the base URL and through
    the constructor's session, whose headers carry the api key, [accept]
    and [content-type]. *)
Theorem every_request_is_authenticated
    (stream0 key0 : value) (cs : list call) (s : Session) (r : Request) :
  Sent s r ∈ wire (session cs (mkWorld (init stream0 key0) [])) →
  s = client (init stream0 key0) ∧
  headers s !! "orderful-api-key" = Some key0 ∧
  headers s !! "accept" = Some (VStr "application/json") ∧
  headers s !! "content-type" = Some (VStr "application/json") ∧
  ∃ path, req_url r = "https://api.orderful.com/v3/" +:+ path.
Proof.
  assert (∀ w, Sent s r ∈ wire (session cs w) →
               Sent s r ∈ wire w ∨
               (s = client (self w) ∧
                ∃ path, req_url r = "https://api.orderful.com/v3/" +:+ path)) as Hgen.
  { induction cs as [ | c cs IH ]; intros w H; [ by left | ].
    cbn [session] in H. apply IH in H. rewrite invoke_self in H.
    destruct H as [H | H]; [ | by right ].
    rewrite invoke_wire in H. apply elem_of_app in H as [H | H]; [ by left | ].
    right. by apply invoke_sent in H. }
  intros H. apply Hgen in H as [H | (-> & Hurl)]; [ by apply elem_of_nil in H | ].
  split; [ reflexivity | ].
  cbn [self init client headers].
  repeat split; try (apply lookup_union_Some_l; by simplify_map_eq). exact Hurl.
Qed.

(** X8: how the verbs are used.  A GET never carries a JSON body or
    headers of its own, a POST never carries query parameters, and the
    only method that passes headers of its own is [convert_data], whose
    request has neither a query nor a body: the two content types are all
    it sends. *)
Theorem verbs_and_their_arguments (c : call) (w : World) (r : Request) :
  r ∈ requests (invoke c) w →
  (req_method r = GET → req_json r = None ∧ req_headers r = None) ∧
  (req_method r = POST → req_params r = None) ∧
  (∀ h : dict, req_headers r = Some h →
     ∃ origin_content destination_content,
       c = ConvertData origin_content destination_content ∧
       h = {[ "Content-Type" := origin_content; "Accept" := destination_content ]} ∧
       req_method r = POST ∧ req_params r = None ∧ req_json r = None).
Proof.
  destruct c; unfold requests, emitted, invoke; unfold_client; try name_request r0;
    run_cases; rewrite ?drop_all; wire_tail;
    rewrite ?requests_of_sent, ?requests_of_decoded; intros H.
  all: repeat first [ apply elem_of_nil in H; contradiction
                    | apply elem_of_cons in H as [H | H] ].
  all: subst r; unfold r0; cbn [req_method req_json req_headers req_params].
  all: split; [ done | ]; split; [ done | ].
  all: intros h Hh; try discriminate Hh.
  all: injection Hh as <-; by repeat eexists.
Qed.

Lemma dom_when_update (c v : value) (k : string) (d : dict) :
  dom (when c (update k v) d) = (if truthy c then {[ k ]} else ∅) ∪ dom d.
Proof.
  unfold when, update. destruct (truthy c); [ apply dom_insert_L | ].
  by rewrite (left_id_L ∅ (∪)).
Qed.

(** X9: [create_acknowledgment] always posts [status], with the value
    given even when it is falsy, for [status] is not guarded; [errors] is
    the only other key the body can have. *)
Theorem create_acknowledgment_always_sends_status
    (transaction_id : ident) (status errors : value) (w : World) :
  ∃ r : Request,
    requests (create_acknowledgment transaction_id status errors) w = [r] ∧
    req_method r = POST ∧
    req_url r = "https://api.orderful.com/v3/transactions/"
                +:+ format transaction_id +:+ "/acknowledgments" ∧
    body r !! "status" = Some status ∧
    dom (body r) = {[ "status" ]} ∪ (if truthy errors then {[ "errors" ]} else ∅).
Proof.
  eexists; split; [ apply create_acknowledgment_sends | ].
  do 2 (split; [ reflexivity | ]). open_dict. split.
  - rewrite lookup_when_update_ne by done. apply lookup_singleton_eq.
  - rewrite dom_when_update, dom_singleton_L. apply (comm_L (∪)).
Qed.

(** X10: the guarded methods send nothing but their documented keys:
    the query of [get_transactions_from_poller_bucket],
    [list_relationships] and [get_transaction] and the body of
    [approve_delivery] and [fail_delivery] hold exactly the keys whose
    argument is truthy. *)
Theorem guarded_methods_send_no_other_key (w : World) :
  (∀ bucket_id limit, ∃ r,
     requests (get_transactions_from_poller_bucket bucket_id limit) w = [r] ∧
     dom (query r) = if truthy limit then {[ "limit" ]} else ∅) ∧
  (∀ bucket_id auto_send limit prev_cursor next_cursor, ∃ r,
     requests (list_relationships bucket_id auto_send limit prev_cursor next_cursor) w = [r] ∧
     dom (query r)
     = (if truthy auto_send then {[ "auto_send" ]} else ∅)
       ∪ (if truthy limit then {[ "limit" ]} else ∅)
       ∪ (if truthy prev_cursor then {[ "prev_cursor" ]} else ∅)
       ∪ (if truthy next_cursor then {[ "next_cursor" ]} else ∅)) ∧
  (∀ transaction_id include_message, ∃ r,
     requests (get_transaction transaction_id include_message) w = [r] ∧
     dom (query r) = if truthy include_message then {[ "expand" ]} else ∅) ∧
  (∀ delivery_id note, ∃ r,
     requests (approve_delivery delivery_id note) w = [r] ∧
     dom (body r) = if truthy note then {[ "note" ]} else ∅) ∧
  (∀ delivery_id note, ∃ r,
     requests (fail_delivery delivery_id note) w = [r] ∧
     dom (body r) = if truthy note then {[ "note" ]} else ∅).
Proof.
  repeat apply conj; intros.
  - eexists; split; [ apply get_transactions_from_poller_bucket_sends | ].
    open_dict. rewrite dom_when_update, dom_empty_L. apply (right_id_L ∅ (∪)).
  - eexists; split; [ apply list_relationships_sends | ].
    open_dict. rewrite !dom_when_update, dom_empty_L.
    repeat case_match; set_solver.
  - eexists; split; [ apply get_transaction_sends | ].
    open_dict. rewrite dom_when_update, dom_empty_L. apply (right_id_L ∅ (∪)).
  - eexists; split; [ apply approve_delivery_sends | ].
    open_dict. rewrite dom_when_update, dom_empty_L. apply (right_id_L ∅ (∪)).
  - eexists; split; [ apply fail_delivery_sends | ].
    open_dict. rewrite dom_when_update, dom_empty_L. apply (right_id_L ∅ (∪)).
Qed.

Lemma fill_size (a : list_transactions_args) (fs : list filter) (p : dict) :
  NoDup (query_key <$> fs) →
  (∀ f, f ∈ fs → p !! query_key f = None) →
  size (fill a fs p)
  = (size p + length (List.filter (λ f, truthy (arg_value f a)) fs))%nat.
Proof.
  revert p; induction fs as [ | f fs IH ]; intros p Hnd Hp.
  - cbn. lia.
  - rewrite fmap_cons, NoDup_cons in Hnd. destruct Hnd as [Hf Hnd].
    rewrite fill_cons, IH; [ | done | ].
    + cbn [List.filter]. unfold when, update.
      destruct (truthy (arg_value f a)); [ | lia ].
      rewrite map_size_insert_None by (apply Hp, elem_of_cons; by left).
      cbn [length]. lia.
    + intros g Hg. rewrite lookup_when_update_ne.
      * apply Hp, elem_of_cons. by right.
      * intros Heq. apply Hf. rewrite Heq. by apply list_elem_of_fmap_2.
Qed.

(** X11: the query of [list_transactions] has as many keys as there are
    truthy filters; when every filter is falsy the query is empty. *)
Theorem list_transactions_query_size (a : list_transactions_args) (w : World) :
  ∃ r : Request,
    requests (list_transactions a) w = [r] ∧
    size (query r) = length (List.filter (λ f, truthy (arg_value f a)) filters) ∧
    ((∀ f, truthy (arg_value f a) = false) → query r = ∅).
Proof.
  eexists; split; [ apply list_transactions_sends | ]. open_dict. split.
  - rewrite fill_size; [ by rewrite map_size_empty | apply query_keys_distinct | ].
    intros f _. apply lookup_empty.
  - intros Hall. apply map_eq. intros k. rewrite lookup_empty.
    destruct (fill a filters ∅ !! k) as [v | ] eqn:Hk; [ | reflexivity ].
    apply fill_lookup_Some in Hk as [Hk | (f & _ & _ & Ht & _)].
    + by rewrite lookup_empty in Hk.
    + by rewrite Hall in Ht.
Qed.

(** X12: [include_message] of [get_transaction] is a switch: two values
    of the same truthiness give the same request, so the caller cannot
    choose what is expanded. *)
Theorem get_transaction_include_message_is_a_switch
    (transaction_id : ident) (x y : value) (w : World) :
  truthy x = truthy y →
  requests (get_transaction transaction_id x) w
  = requests (get_transaction transaction_id y) w.
Proof.
  intros Hxy. rewrite !get_transaction_sends. unfold when. by rewrite Hxy.
Qed.

Lemma get_transaction_message_sends (transaction_id : ident) (w : World) :
  requests (get_transaction_message transaction_id) w
  = [ mkRequest GET
        ("https://api.orderful.com/v3/transactions/" +:+ format transaction_id +:+ "/message")
        None None None ].
Proof. sends_one. Qed.

Lemma get_attachment_sends (attachment_id : ident) (w : World) :
  requests (get_attachment attachment_id) w
  = [ mkRequest GET ("https://api.orderful.com/v3/attachments/" +:+ format attachment_id)
        None None None ].
Proof. sends_one. Qed.

Lemma get_attachment_content_sends (attachment_id : ident) (w : World) :
  requests (get_attachment_content attachment_id) w
  = [ mkRequest GET
        ("https://api.orderful.com/v3/attachments/" +:+ format attachment_id +:+ "/content")
        None None None ].
Proof. sends_one. Qed.

(** X13: identifiers are put into the URL as they are, without escaping
    or checking.  An id that ends in a path segment reaches another
    endpoint: [get_transaction] with the id [s/message] asks for the URL
    of [get_transaction_message] with the id [s], and [get_attachment]
    with [s/content] for that of [get_attachment_content] with [s]; an
    integer id and the string of its digits give the same request. *)
Theorem identifiers_are_interpolated_verbatim (s : string) (z : Z) (w : World) :
  (∃ r r',
     requests (get_transaction (IdStr (s +:+ "/message")) default_arg) w = [r] ∧
     requests (get_transaction_message (IdStr s)) w = [r'] ∧
     req_method r = req_method r' ∧ req_url r = req_url r') ∧
  requests (get_attachment (IdStr (s +:+ "/content"))) w
  = requests (get_attachment_content (IdStr s)) w ∧
  requests (get_transaction_message (IdInt z)) w
  = requests (get_transaction_message (IdStr (pretty z))) w.
Proof.
  split; [ | split ].
  - do 2 eexists. split; [ apply get_transaction_sends | ].
    split; [ apply get_transaction_message_sends | ]. by split.
  - by rewrite get_attachment_sends, get_attachment_content_sends.
  - by rewrite !get_transaction_message_sends.
Qed.

End Client.

(** ** Concrete runs *)

(** C1, as stated, fails for [get_transaction]: a truthy
    [include_message] is not what the query carries under [expand]. *)
Lemma get_transaction_expand_is_not_the_argument :
  let w := mkWorld (init ∅ (VStr "TEST") (VStr "key")) [] in
  let include_message := VBool true in
  truthy include_message = true ∧
  ∃ r : Request,
    requests (get_transaction (answering (mkResponse 200 [])) (decoding None)
                (IdStr "tx_1") include_message) w = [r] ∧
    query r !! "expand" = Some (VStr "message") ∧
    query r !! "expand" ≠ Some include_message.
Proof.
  intros w include_message. split; [ reflexivity | ].
  eexists. split; [ apply get_transaction_sends | ].
  split; [ reflexivity | ]. intros H. vm_compute in H. discriminate H.
Qed.

(** C3, as stated, fails on the count: with every filter supplied the
    query has seventeen keys, not sixteen. *)
Lemma list_transactions_has_seventeen_filters :
  let w := mkWorld (init ∅ (VStr "TEST") (VStr "key")) [] in
  let x := VStr "x" in
  let a := mkFilters x x x x x x x x x x x x x x x x x in
  length filters ≠ 16%nat ∧
  ∃ r : Request,
    requests (list_transactions (answering (mkResponse 200 [])) (decoding None) a) w = [r] ∧
    size (query r) = 17%nat ∧
    size (query r) ≠ 16%nat.
Proof.
  intros w x a. split; [ discriminate | ].
  eexists. split; [ apply list_transactions_sends | ].
  assert (size (query (mkRequest GET "https://api.orderful.com/v3/transactions"
                         None (Some (fill a filters ∅)) None)) = 17%nat) as ->
    by (vm_compute; reflexivity).
  split; [ reflexivity | discriminate ].
Qed.


(** C2 at work: a 404 on [get_transaction]. *)
Lemma failure_status_raises_http_error_witness :
  let resp := mkResponse 404 [] in
  let w := mkWorld (init ∅ (VStr "TEST") (VStr "key")) [] in
  let c := GetTransaction (IdStr "tx_1") (VBool true) in
  failure_status resp = true ∧
  (invoke (answering resp) (decoding None) c w).1 = Raise (HTTPError resp) ∧
  emitted (invoke (answering resp) (decoding None) c) w
  = [ Sent (client (self w))
        (mkRequest GET "https://api.orderful.com/v3/transactions/tx_1" None
           (Some {[ "expand" := VStr "message" ]}) None) ].
Proof.
  intros resp w c. split; [ reflexivity | ].
  destruct (failure_status_raises_http_error (answering resp) (decoding None) c w)
    as [ [ [Hc | [Hc | Hc]] _ ] | (r & _ & Hfail) ]; try discriminate Hc.
  split; [ by rewrite (Hfail eq_refl) | ].
  vm_compute. reflexivity.
Defined.

(** C7 at work: three bytes come back as they are. *)
Lemma get_attachment_content_returns_raw_bytes_witness :
  let payload := [Byte.x89; Byte.x50; Byte.x00] in
  let resp := mkResponse 200 payload in
  let w := mkWorld (init ∅ (VStr "TEST") (VStr "key")) [] in
  failure_status resp = false ∧
  (get_attachment_content (answering resp) (IdStr "att_1") w).1 = Return payload.
Proof.
  intros payload resp w. split; [ reflexivity | ].
  destruct (get_attachment_content_returns_raw_bytes (answering resp) (IdStr "att_1") w)
    as (r & _ & _ & _ & H).
  by rewrite (H eq_refl).
Defined.

(** C4 at work: the answer [{"id": "tx_123", "stream": "TEST"}]. *)
Lemma create_transaction_posts_and_returns_id_witness :
  let d : dict := {[ "id" := VStr "tx_123"; "stream" := VStr "TEST" ]} in
  let resp := mkResponse 201 [] in
  let w := mkWorld (init ∅ (VStr "TEST") (VStr "key")) [] in
  failure_status resp = false ∧
  decoding (Some (VDict d)) (content resp) = Some (VDict d) ∧
  d !! "id" = Some (VStr "tx_123") ∧
  (create_transaction (answering resp) (decoding (Some (VDict d)))
     (VStr "850") (VDict ∅) (VStr "SENDER") (VStr "RECEIVER") w).1
  = Return (VStr "tx_123").
Proof.
  intros d resp w. do 3 (split; [ reflexivity | ]).
  destruct (create_transaction_posts_and_returns_id
              (answering resp) (decoding (Some (VDict d)))
              (VStr "850") (VDict ∅) (VStr "SENDER") (VStr "RECEIVER") w)
    as (r & _ & _ & _ & _ & _ & _ & _ & _ & _ & H & _).
  by rewrite (H d (VStr "tx_123") eq_refl eq_refl eq_refl).
Defined.

(** C5 at work: the answer [{"metadata": {}, "data": []}]. *)
Lemma list_transactions_returns_metadata_and_data_witness :
  let d : dict := {[ "metadata" := VDict ∅; "data" := VList [] ]} in
  let resp := mkResponse 200 [] in
  let w := mkWorld (init ∅ (VStr "TEST") (VStr "key")) [] in
  failure_status resp = false ∧
  decoding (Some (VDict d)) (content resp) = Some (VDict d) ∧
  d !! "metadata" = Some (VDict ∅) ∧
  d !! "data" = Some (VList []) ∧
  (list_transactions (answering resp) (decoding (Some (VDict d))) no_filters w).1
  = Return (VDict ∅, VList []).
Proof.
  intros d resp w. do 4 (split; [ reflexivity | ]).
  destruct (list_transactions_returns_metadata_and_data
              (answering resp) (decoding (Some (VDict d))) no_filters w)
    as (r & _ & _ & _ & H & _).
  by rewrite (H d (VDict ∅) (VList []) eq_refl eq_refl eq_refl eq_refl).
Defined.

(** C9 at work: an empty object in answer to [create_transaction], and an
    object with [metadata] only in answer to [list_transactions]. *)
Lemma field_extraction_is_partial_witness :
  let resp := mkResponse 200 [] in
  let w := mkWorld (init ∅ (VStr "TEST") (VStr "key")) [] in
  let d : dict := {[ "metadata" := VDict ∅ ]} in
  failure_status resp = false ∧
  (∅ : dict) !! "id" = None ∧
  (create_transaction (answering resp) (decoding (Some (VDict ∅)))
     (VStr "850") (VDict ∅) (VStr "SENDER") (VStr "RECEIVER") w).1
  = Raise (KeyError "id") ∧
  is_Some (d !! "metadata") ∧ d !! "data" = None ∧
  (list_transactions (answering resp) (decoding (Some (VDict d))) no_filters w).1
  = Raise (KeyError "data").
Proof.
  intros resp w d.
  destruct (field_extraction_is_partial (answering resp) (decoding (Some (VDict ∅))) w)
    as [Hc _].
  destruct (Hc (VStr "850") (VDict ∅) (VStr "SENDER") (VStr "RECEIVER"))
    as (r & _ & Hid).
  destruct (Hid ∅ eq_refl eq_refl) as [Hmissing _].
  destruct (field_extraction_is_partial (answering resp) (decoding (Some (VDict d))) w)
    as [_ Hl].
  destruct (Hl no_filters) as (r' & _ & Hkeys).
  destruct (Hkeys d eq_refl eq_refl) as (_ & Hdata & _).
  split; [ reflexivity | ]. split; [ reflexivity | ].
  split; [ exact (Hmissing eq_refl) | ].
  split; [ by eexists | ]. split; [ reflexivity | ].
  exact (Hdata (ex_intro _ (VDict ∅) eq_refl) eq_refl).
Defined.

(** C10 at work: a zero and an empty string are posted like any other
    value, where [approve_delivery] leaves an empty note out. *)
Lemma generate_label_sends_every_keyword_argument_witness :
  let kwargs : dict := {[ "copies" := VInt 0; "reference" := VStr "" ]} in
  let w := mkWorld (init ∅ (VStr "TEST") (VStr "key")) [] in
  kwargs !! "copies" = Some (VInt 0) ∧ truthy (VInt 0) = false ∧
  (∃ r : Request,
     requests (generate_label (answering (mkResponse 200 [])) (decoding None)
                 (IdStr "gs1") kwargs) w = [r] ∧
     body r !! "copies" = Some (VInt 0)) ∧
  (∃ r : Request,
     requests (approve_delivery (answering (mkResponse 200 [])) (IdStr "d_1") (VStr "")) w = [r] ∧
     body r !! "note" = None).
Proof.
  intros kwargs w. do 2 (split; [ reflexivity | ]). split.
  - destruct (generate_label_sends_every_keyword_argument
                (answering (mkResponse 200 [])) (decoding None) (IdStr "gs1") kwargs w)
      as (r & Hr & _ & _ & _ & _ & Hfalsy & _).
    exists r. split; [ exact Hr | ].
    exact (Hfalsy "copies" (VInt 0) eq_refl eq_refl).
  - eexists. split; [ apply approve_delivery_sends | ]. reflexivity.
Defined.

(** C3 at work: one filter supplied, one key in the query. *)
Lemma list_transactions_query_is_camel_case_witness :
  let w := mkWorld (init ∅ (VStr "TEST") (VStr "key")) [] in
  let numbers := VList [VStr "PO-1"; VStr "PO-2"] in
  let a := mkFilters default_arg default_arg default_arg numbers default_arg
             default_arg default_arg default_arg default_arg default_arg
             default_arg default_arg default_arg default_arg default_arg
             default_arg default_arg in
  ∃ r : Request,
    requests (list_transactions (answering (mkResponse 200 [])) (decoding None) a) w = [r] ∧
    query r !! "businessNumbers" = Some numbers ∧
    query r !! "business_numbers" = None ∧
    query r !! "prevCursor" = None.
Proof.
  intros w numbers a.
  destruct (list_transactions_query_is_camel_case
              (answering (mkResponse 200 [])) (decoding None) a w)
    as (_ & _ & _ & _ & _ & r & Hr & _ & _ & Hkey & Honly).
  exists r. split; [ exact Hr | ].
  split; [ exact (Hkey F_business_numbers) | ].
  split; [ | exact (Hkey F_prev_cursor) ].
  destruct (query r !! "business_numbers") as [v | ] eqn:Hv; [ | reflexivity ].
  destruct (Honly _ _ Hv) as (f & Hf & _). by destruct f.
Defined.

(** X1 at work: the organization details come back as the list the
    service sent. *)
Lemma decoding_methods_return_the_body_witness :
  let resp := mkResponse 200 [] in
  let v := VList [VInt 1; VStr "two"] in
  let w := mkWorld (init ∅ (VStr "TEST") (VStr "key")) [] in
  ending_of GetOrganizationDetails = Decodes ∧
  failure_status resp = false ∧
  (invoke (answering resp) (decoding (Some v)) GetOrganizationDetails w).1
  = Return (RValue v) ∧
  (invoke (answering resp) (decoding None) GetOrganizationDetails w).1
  = Raise (JSONDecodeError resp).
Proof.
  intros resp v w. do 2 (split; [ reflexivity | ]). split.
  - destruct (decoding_methods_return_the_body (answering resp) (decoding (Some v))
                GetOrganizationDetails w eq_refl) as (r & _ & H).
    destruct (H eq_refl) as [Hv _]. by rewrite (Hv v eq_refl).
  - destruct (decoding_methods_return_the_body (answering resp) (decoding None)
                GetOrganizationDetails w eq_refl) as (r & _ & H).
    destruct (H eq_refl) as [_ Hnone]. exact (Hnone eq_refl).
Defined.

(** X2 at work: an approval answered by 204 with an empty body. *)
Lemma silent_methods_return_none_witness :
  let resp := mkResponse 204 [] in
  let w := mkWorld (init ∅ (VStr "TEST") (VStr "key")) [] in
  let c := ApproveDelivery (IdStr "d_1") (VStr "ok") in
  ending_of c = Silent ∧
  failure_status resp = false ∧
  (invoke (answering resp) (decoding None) c w).1 = Return (RValue VNone).
Proof.
  intros resp w c. do 2 (split; [ reflexivity | ]).
  destruct (silent_methods_return_none (answering resp) (decoding None) c w eq_refl)
    as (r & _ & _ & H).
  by rewrite (H eq_refl).
Defined.

(** X3 at work: a JSON list in answer to [create_transaction]. *)
Lemma extraction_needs_an_object_witness :
  let resp := mkResponse 200 [] in
  let v := VList [VStr "tx_123"] in
  let w := mkWorld (init ∅ (VStr "TEST") (VStr "key")) [] in
  let c := CreateTransaction (VStr "850") (VDict ∅) (VStr "SENDER") (VStr "RECEIVER") in
  ending_of c = Extracts ∧
  failure_status resp = false ∧
  (∀ d, v ≠ VDict d) ∧
  (invoke (answering resp) (decoding (Some v)) c w).1 = Raise TypeError.
Proof.
  intros resp v w c. do 2 (split; [ reflexivity | ]).
  assert (∀ d, v ≠ VDict d) as Hv by (intros d; discriminate).
  split; [ exact Hv | ].
  destruct (extraction_needs_an_object (answering resp) (decoding (Some v)) c w eq_refl)
    as (r & _ & H).
  destruct (H eq_refl) as [Htype _]. exact (Htype v eq_refl Hv).
Defined.

(** X4 at work: a 500 on [get_delivery]. *)
Lemma http_error_only_on_failure_status_witness :
  let resp := mkResponse 500 [] in
  let w := mkWorld (init ∅ (VStr "TEST") (VStr "key")) [] in
  let c := GetDelivery (IdInt 7) in
  (invoke (answering resp) (decoding None) c w).1 = Raise (HTTPError resp) ∧
  400 ≤ status_code resp < 600.
Proof.
  intros resp w c.
  assert ((invoke (answering resp) (decoding None) c w).1 = Raise (HTTPError resp)) as H
    by reflexivity.
  split; [ exact H | ].
  exact (proj1 (http_error_only_on_failure_status
                  (answering resp) (decoding None) c w resp H)).
Defined.

(** X7 at work: the second of two calls, made after a failed one. *)
Lemma every_request_is_authenticated_witness :
  let resp := mkResponse 503 [] in
  let cs := [GetOrganizationDetails; GetDelivery (IdInt 7)] in
  let s := client (init ∅ (VStr "TEST") (VStr "key")) in
  let r := mkRequest GET "https://api.orderful.com/v3/deliveries/7" None None None in
  Sent s r ∈ wire (session (answering resp) (decoding None) cs
                     (mkWorld (init ∅ (VStr "TEST") (VStr "key")) [])) ∧
  headers s !! "orderful-api-key" = Some (VStr "key").
Proof.
  intros resp cs s r.
  assert (Sent s r ∈ wire (session (answering resp) (decoding None) cs
                             (mkWorld (init ∅ (VStr "TEST") (VStr "key")) []))) as H.
  { apply list_elem_of_further, list_elem_of_here. }
  split; [ exact H | ].
  exact (proj1 (proj2 (every_request_is_authenticated
                         (answering resp) (decoding None) ∅
                         (VStr "TEST") (VStr "key") cs s r H))).
Defined.

(** X8 at work: the request of [convert_data]. *)
Lemma verbs_and_their_arguments_witness :
  let resp := mkResponse 200 [] in
  let w := mkWorld (init ∅ (VStr "TEST") (VStr "key")) [] in
  let c := ConvertData (VStr "application/edi-x12") (VStr "application/json") in
  let r := mkRequest POST "https://api.orderful.com/v3/convert"
             (Some {[ "Content-Type" := VStr "application/edi-x12";
                      "Accept" := VStr "application/json" ]}) None None in
  r ∈ requests (invoke (answering resp) (decoding None) c) w ∧
  (req_method r = POST → req_params r = None).
Proof.
  intros resp w c r.
  assert (r ∈ requests (invoke (answering resp) (decoding None) c) w) as H
    by apply list_elem_of_here.
  split; [ exact H | ].
  exact (proj1 (proj2 (verbs_and_their_arguments
                         (answering resp) (decoding None) c w r H))).
Defined.

(** X11 at work: no filter given, empty query. *)
Lemma list_transactions_query_size_witness :
  let w := mkWorld (init ∅ (VStr "TEST") (VStr "key")) [] in
  (∀ f, truthy (arg_value f no_filters) = false) ∧
  ∃ r : Request,
    requests (list_transactions (answering (mkResponse 200 [])) (decoding None) no_filters) w
    = [r] ∧
    query r = ∅.
Proof.
  intros w.
  assert (∀ f, truthy (arg_value f no_filters) = false) as Hall by (by intros []).
  split; [ exact Hall | ].
  destruct (list_transactions_query_size
              (answering (mkResponse 200 [])) (decoding None) no_filters w)
    as (r & Hr & _ & Hempty).
  exists r. split; [ exact Hr | exact (Hempty Hall) ].
Defined.

(** X12 at work: [True] and a non-empty string ask for the same. *)
Lemma get_transaction_include_message_is_a_switch_witness :
  let w := mkWorld (init ∅ (VStr "TEST") (VStr "key")) [] in
  truthy (VBool true) = truthy (VStr "attachments") ∧
  requests (get_transaction (answering (mkResponse 200 [])) (decoding None)
              (IdStr "tx_1") (VBool true)) w
  = requests (get_transaction (answering (mkResponse 200 [])) (decoding None)
                (IdStr "tx_1") (VStr "attachments")) w.
Proof.
  intros w. split; [ reflexivity | ].
  exact (get_transaction_include_message_is_a_switch
           (answering (mkResponse 200 [])) (decoding None)
           (IdStr "tx_1") (VBool true) (VStr "attachments") w eq_refl).
Defined.
